(** * Morgan front-end: the action toolbar and the chat-message renderer

    A shallow embedding of the two React components

      - [ActionToolbar]  (frontend/components/action-toolbar.tsx)
      - [ChatInterface]  (the chat-message renderer)

    Event handlers are computations in a small monad that threads the
    component state and a chronological trace of observable effects
    (toasts, HTTP requests, console output, state updates) and that can
    throw, so that [try]/[catch]/[finally] is modelled as written.  The
    [async] handler is also given in two parts, before and after its
    [await], with the component rendered in between.  The rendered output
    of a component is a typed view: one field per hole of the JSX
    template. *)

From Stdlib Require Import String Ascii List Bool ZArith Lia DecimalString SpecFloat.
Import ListNotations.
Local Open Scope string_scope.

(** ** JavaScript values used by the components *)

Module JS.

(** An optional string property: [None] is [undefined] (or [null]). *)
Definition truthy (v : option string) : bool :=
  match v with
  | Some s => negb (s =? EmptyString)
  | None => false
  end.

(** [v || d] for an optional string [v] and a string [d]. *)
Definition or (v : option string) (d : string) : string :=
  match v with
  | Some s => if s =? EmptyString then d else s
  | None => d
  end.

(** [`${v}`] for an optional string. *)
Definition interpolate (v : option string) : string :=
  match v with
  | Some s => s
  | None => "undefined"
  end.

(** [`${n}`] for an integer-valued number. *)
Definition of_int (n : Z) : string := NilZero.string_of_int (Z.to_int n).

Definition upper_ascii (c : ascii) : ascii :=
  let n := nat_of_ascii c in
  if (97 <=? n)%nat && (n <=? 122)%nat then ascii_of_nat (n - 32) else c.

(** [s.toUpperCase()], on ASCII text. *)
Fixpoint toUpperCase (s : string) : string :=
  match s with
  | EmptyString => EmptyString
  | String c r => String (upper_ascii c) (toUpperCase r)
  end.

(** Values that can be thrown or that reject a promise. *)
Inductive Thrown :=
| ErrorObject (message : string)   (* an instance of Error *)
| OtherThrown (repr : string).     (* any other value *)

End JS.

(** ** [JSON.stringify] on an object literal of string properties *)

Module JSON.

Definition dquote : ascii := ascii_of_nat 34.
Definition backslash : ascii := ascii_of_nat 92.

Definition hex_digit (n : nat) : ascii :=
  if (n <? 10)%nat then ascii_of_nat (48 + n) else ascii_of_nat (87 + n).

(** One code unit of a quoted string (QuoteJSONString). Strings are byte
    sequences here; bytes above 0x7F belong to UTF-8 sequences and pass
    through unchanged. *)
Definition escape (c : ascii) : string :=
  let n := nat_of_ascii c in
  if (n =? 34)%nat then String backslash (String dquote EmptyString)
  else if (n =? 92)%nat then "\\"
  else if (n =? 8)%nat then "\b"
  else if (n =? 12)%nat then "\f"
  else if (n =? 10)%nat then "\n"
  else if (n =? 13)%nat then "\r"
  else if (n =? 9)%nat then "\t"
  else if (n <? 32)%nat then
    "\u00" ++ String (hex_digit (n / 16)) (String (hex_digit (n mod 16)) EmptyString)
  else String c EmptyString.

Fixpoint escape_all (s : string) : string :=
  match s with
  | EmptyString => EmptyString
  | String c r => escape c ++ escape_all r
  end.

Definition quote (s : string) : string :=
  String dquote (escape_all s ++ String dquote EmptyString).

Definition property (kv : string * string) : string :=
  quote (fst kv) ++ ":" ++ quote (snd kv).

Fixpoint join (sep : string) (l : list string) : string :=
  match l with
  | [] => EmptyString
  | [x] => x
  | x :: r => x ++ sep ++ join sep r
  end.

(** An object literal, properties in insertion order. *)
Definition object := list (string * string).

Definition stringify (o : object) : string :=
  "{" ++ join "," (map property o) ++ "}".

Fixpoint get (k : string) (o : object) : option string :=
  match o with
  | [] => None
  | (k', v) :: r => if k' =? k then Some v else get k r
  end.

End JSON.

(** ** Effects of event handlers *)

Module Eff.

(** What a toast shows as its description: a string, or a value of the
    reply that is not a string, given by its JSON text. *)
Inductive Content :=
| Text (s : string)
| Value (json : string).
Coercion Text : string >-> Content.

(** A toast notification, as passed to [toast] of [useToast]. *)
Record Toast := {
  title : string;
  description : Content;
  variant : option string
}.

(** The arguments of a [fetch] call. *)
Record Request := {
  url : string;
  method : string;
  headers : list (string * string);
  body : string
}.

(** Observable effects, in the order in which they happen. *)
Inductive Event :=
| Toasted (t : Toast)
| Fetched (r : Request)
| ConsoleError (label : string) (e : JS.Thrown)
| SetIsLoading (b : bool).

(** The state of the toolbar: [const [isLoading, setIsLoading] = useState(false)]. *)
Record State := { isLoading : bool }.

Record World := {
  state : State;
  trace : list Event
}.

Definition initial : World := {| state := {| isLoading := false |}; trace := [] |}.

Inductive Outcome (A : Type) :=
| Returned (a : A)
| Threw (e : JS.Thrown).
Arguments Returned {A} a.
Arguments Threw {A} e.

(** A computation runs in a world and either returns or throws; the world
    it leaves behind is kept in both cases. *)
Definition M (A : Type) : Type := World -> Outcome A * World.

Definition ret {A} (a : A) : M A := fun w => (Returned a, w).

Definition bind {A B} (m : M A) (k : A -> M B) : M B :=
  fun w =>
    match m w with
    | (Returned a, w') => k a w'
    | (Threw e, w') => (Threw e, w')
    end.

Definition throw {A} (e : JS.Thrown) : M A := fun w => (Threw e, w).

(** [try { body } catch (error) { handler } finally { fin }] *)
Definition try_catch_finally {A} (body : M A) (handler : JS.Thrown -> M A) (fin : M unit) : M A :=
  fun w =>
    let r := match body w with
             | (Returned a, w') => (Returned a, w')
             | (Threw e, w') => handler e w'
             end in
    match fin (snd r) with
    | (Returned _, w'') => (fst r, w'')
    | (Threw e, w'') => (Threw e, w'')
    end.

Definition emit (ev : Event) : M unit :=
  fun w => (Returned tt, {| state := state w; trace := trace w ++ [ev] |}).

Definition toast (t : Toast) : M unit := emit (Toasted t).

Definition console_error (label : string) (e : JS.Thrown) : M unit :=
  emit (ConsoleError label e).

Definition setIsLoading (b : bool) : M unit :=
  fun w => (Returned tt, {| state := {| isLoading := b |}; trace := trace w ++ [SetIsLoading b] |}).

(** Lift a settled promise: [await p]. *)
Definition await {A} (p : JS.Thrown + A) : M A :=
  match p with
  | inl e => throw e
  | inr a => ret a
  end.

Definition outcome {A} (m : M A) (w : World) : Outcome A := fst (m w).
Definition exec {A} (m : M A) (w : World) : World := snd (m w).

(** The HTTP requests of a trace. *)
Fixpoint requests (t : list Event) : list Request :=
  match t with
  | [] => []
  | Fetched r :: t' => r :: requests t'
  | _ :: t' => requests t'
  end.

(** The toasts of a trace. *)
Fixpoint toasts (t : list Event) : list Toast :=
  match t with
  | [] => []
  | Toasted x :: t' => x :: toasts t'
  | _ :: t' => toasts t'
  end.

(** The state updates of a trace. *)
Fixpoint updates (t : list Event) : list bool :=
  match t with
  | [] => []
  | SetIsLoading b :: t' => b :: updates t'
  | _ :: t' => updates t'
  end.

End Eff.

Declare Scope eff_scope.
Delimit Scope eff_scope with eff.
Notation "x <- m ;; k" := (Eff.bind m (fun x => k))
  (at level 61, m at next level, right associativity) : eff_scope.
Notation "m ;; k" := (Eff.bind m (fun _ => k))
  (at level 61, right associativity) : eff_scope.

(** ** Views *)

Module View.

(** A rendered [<Button>]: its text, its classes, whether it is disabled,
    and the closure bound to [onClick]. *)
Record Button (H : Type) := {
  label : string;
  className : string;
  disabled : bool;
  onClick : H
}.
Arguments label {H} _.
Arguments className {H} _.
Arguments disabled {H} _.
Arguments onClick {H} _.

End View.

(** ** The action toolbar (action-toolbar.tsx) *)

Module Toolbar.
Import Eff.
Local Open Scope eff_scope.

(** Modelled from the spec: the type [ContextMetadata] of [@/lib/types] is
    not part of the sources; the toolbar reads its properties
    [client_name] and [phone], each of which may be absent or empty. *)
Record ContextMetadata := {
  client_name : option string;
  phone : option string
}.

(** The parsed body of a reply, as far as the toolbar reads it: [null];
    a value whose [message] property is a string or is not there ([None]
    also stands for a [message] that is [null], [false] or [0], which
    [||] treats alike); or a value whose [message] is truthy and not a
    string (a number, [true], an array, an object), given by the JSON
    text of that message. *)
Inductive Payload :=
| PNull
| PData (message : option string)
| PValue (json : string).

(** The [Response] a [fetch] resolves to; [json] is the settled result of
    [response.json()]. *)
Record Response := {
  ok : bool;
  status : Z;
  json : JS.Thrown + Payload
}.

(** What the handler finds around it: the build-time environment variable
    and the network, which settles each request by rejecting or by
    resolving to a response. A run of the handler in one go is therefore a
    run whose request is answered; the handler before the answer, and
    without one, is in [Phases] below. *)
Record Env := {
  NEXT_PUBLIC_API_URL : option string;
  network : Request -> JS.Thrown + Response
}.

(** [fetch(url, init)]: the request is issued, then the promise settles. *)
Definition fetch (env : Env) (r : Request) : M Response :=
  emit (Fetched r) ;; await (network env r).

(** [data.message]: reading a property of [null] throws a TypeError. *)
Definition data_message (d : Payload) : M (option Content) :=
  match d with
  | PNull => throw (JS.ErrorObject "Cannot read properties of null (reading 'message')")
  | PData m => ret (option_map Text m)
  | PValue j => ret (Some (Value j))
  end.

(** [message || d] for the [message] of a reply and a string [d]. *)
Definition message_or (message : option Content) (d : string) : Content :=
  match message with
  | Some (Text s) => if s =? EmptyString then d else s
  | Some (Value j) => Value j
  | None => d
  end.

(** [metadata?.client_name] *)
Definition opt_client_name (metadata : option ContextMetadata) : option string :=
  match metadata with
  | Some md => client_name md
  | None => None
  end.

(** Line 31: [process.env.NEXT_PUBLIC_API_URL || "http://localhost:8000"] *)
Definition apiUrl (env : Env) : string :=
  JS.or (NEXT_PUBLIC_API_URL env) "http://localhost:8000".

(** [metadata.client_name] and the like: reading a property of [null]
    throws a TypeError. *)
Definition deref (metadata : option ContextMetadata) : M ContextMetadata :=
  match metadata with
  | Some md => ret md
  | None => throw (JS.ErrorObject "Cannot read properties of null (reading 'client_name')")
  end.

(** Lines 38-42: the object passed to [JSON.stringify], which leaves out
    a property whose value is [undefined]. *)
Definition callPayload (md : ContextMetadata) : JSON.object :=
  List.app
    match client_name md with
    | Some name => [("client_name", name)]
    | None => []
    end
    [ ("phone", JS.or (phone md) "555-0100");
      ("reason", "Case review follow-up") ].

(** Lines 33-43: the arguments of the [fetch] call. *)
Definition callRequest (env : Env) (md : ContextMetadata) : Request :=
  {| url := apiUrl env ++ "/call_client";
     method := "POST";
     headers := [("Content-Type", "application/json")];
     body := JSON.stringify (callPayload md) |}.

Definition missingInformation : Toast :=
  {| title := "Missing Information";
     description := "Client information not available";
     variant := Some "destructive" |}.

(** Lines 51-54. *)
Definition callInitiated (message : option Content) (md : ContextMetadata) : Toast :=
  {| title := "Call Initiated";
     description :=
       message_or message ("Calling " ++ JS.interpolate (client_name md) ++ "...");
     variant := None |}.

(** Lines 57-61, with
    [error instanceof Error ? error.message : "Unknown error"]. *)
Definition callFailed (error : JS.Thrown) : Toast :=
  {| title := "Call Failed";
     description := match error with
                    | JS.ErrorObject m => m
                    | JS.OtherThrown _ => "Unknown error"
                    end;
     variant := Some "destructive" |}.

(** Lines 18-65. *)
Definition handleCallClient (env : Env) (metadata : option ContextMetadata) : M unit :=
  if negb (JS.truthy (opt_client_name metadata)) then
    toast missingInformation
  else
    setIsLoading true ;;
    try_catch_finally
      (md <- deref metadata ;;
       response <- fetch env (callRequest env md) ;;
       (if negb (ok response)
        then throw (JS.ErrorObject ("API error: " ++ JS.of_int (status response)))
        else ret tt) ;;
       data <- await (json response) ;;
       message <- data_message data ;;
       toast (callInitiated message md))
      (fun error =>
         console_error "[v0] Call error:" error ;;
         toast (callFailed error))
      (setIsLoading false).

(** The events of lines 45-61, between the request and the final state
    update, by the way the request settles. *)
Definition settle (md : ContextMetadata) (reply : JS.Thrown + Response) : list Event :=
  let failed e := [ConsoleError "[v0] Call error:" e; Toasted (callFailed e)] in
  match reply with
  | inl e => failed e
  | inr response =>
      if ok response then
        match json response with
        | inl e => failed e
        | inr PNull =>
            failed (JS.ErrorObject "Cannot read properties of null (reading 'message')")
        | inr (PData message) => [Toasted (callInitiated (option_map Text message) md)]
        | inr (PValue j) => [Toasted (callInitiated (Some (Value j)) md)]
        end
      else failed (JS.ErrorObject ("API error: " ++ JS.of_int (status response)))
  end.

(** Lines 67-72. *)
Definition handleSendEmail : M unit :=
  toast {| title := "Email Draft Created";
           description := "Opening email client...";
           variant := None |}.

(** Lines 74-79. *)
Definition handleScheduleMeeting : M unit :=
  toast {| title := "Calendar Opened";
           description := "Select a meeting time...";
           variant := None |}.

(** Lines 81-112: the three buttons of the toolbar, rendered from the
    current state. Only the first one sets [disabled]. *)
Definition ActionToolbar (env : Env) (metadata : option ContextMetadata) (s : State)
  : list (View.Button (M unit)) :=
  [ {| View.label := "Call Client";
       View.className := "bg-[#D71920] hover:bg-[#B01518] text-white shadow-glow hover:scale-105 transition-transform font-sans";
       View.disabled := isLoading s;
       View.onClick := handleCallClient env metadata |};
    {| View.label := "Send Email";
       View.className := "bg-[#FFD700] hover:bg-[#FFD700]/90 text-[#8B0000] shadow-glow hover:scale-105 transition-transform font-sans";
       View.disabled := false;
       View.onClick := handleSendEmail |};
    {| View.label := "Schedule Meeting";
       View.className := "bg-white/20 hover:bg-white/30 text-white border border-white/30 shadow-glow hover:scale-105 transition-transform font-sans";
       View.disabled := false;
       View.onClick := handleScheduleMeeting |} ].

End Toolbar.

(** ** [handleCallClient] as the event loop sees it

    An [async] function runs inside the click up to its first [await] and
    then gives control back; the rest runs when the awaited promise has
    settled, if it ever does. In between the component is rendered from
    the state the first part left. *)

Module Phases.
Import Eff Toolbar.
Local Open Scope eff_scope.

(** Where the handler stands when it gives control back: its own promise
    has settled, or it waits at line 33 for the answer to the request it
    sent for [md]. *)
Inductive Stage :=
| Settled (o : Outcome unit)
| Suspended (md : ContextMetadata).

(** The [catch] block, lines 55-61. *)
Definition onError (error : JS.Thrown) : M unit :=
  console_error "[v0] Call error:" error ;;
  toast (callFailed error).

(** Lines 18-43: what runs inside the click, up to the [await] of line
    33. An exception before the request is out is caught at once. *)
Definition begin (env : Env) (metadata : option ContextMetadata) (w : World)
  : Stage * World :=
  if negb (JS.truthy (opt_client_name metadata)) then
    (Settled (outcome (toast missingInformation) w),
     exec (toast missingInformation) w)
  else
    match (setIsLoading true ;;
           md <- deref metadata ;;
           emit (Fetched (callRequest env md)) ;;
           ret md) w with
    | (Returned md, w') => (Suspended md, w')
    | (Threw e, w') =>
        (Settled (outcome (try_catch_finally (throw e) onError (setIsLoading false)) w'),
         exec (try_catch_finally (throw e) onError (setIsLoading false)) w')
    end.

(** Lines 33-64: the rest of the handler, run when the [fetch] has
    settled with [reply]; [response.json()] settles as the response
    says. *)
Definition resume (md : ContextMetadata) (reply : JS.Thrown + Response) : M unit :=
  try_catch_finally
    (response <- await reply ;;
     (if negb (ok response)
      then throw (JS.ErrorObject ("API error: " ++ JS.of_int (status response)))
      else ret tt) ;;
     data <- await (json response) ;;
     message <- data_message data ;;
     toast (callInitiated message md))
    onError
    (setIsLoading false).

End Phases.

(** ** The chat-message renderer *)

Module Chat.

Inductive Role := AI | Attorney | System.
Inductive Status := pending | approved | rejected | modified.
Inductive Action := approve | modify | reject.

(** A valid [Date], by its time value: milliseconds since the epoch. *)
Record Date := { time_value : Z }.

(** A [number]: an IEEE 754 binary64 value. *)
Definition number := spec_float.

(** [interface Message], lines 7-16. *)
Record Message := {
  id : string;
  role : Role;
  content : string;
  timestamp : Date;
  agentName : option string;
  confidence : option number;
  requiresApproval : option bool;
  status : option Status
}.

(** [interface ChatInterfaceProps], lines 18-21. The callback acts on
    the world [W] of whoever supplied it. *)
Record Props (W : Type) := {
  messages : list Message;
  onMessageAction : option (string -> Action -> W -> W)
}.
Arguments messages {W} _.
Arguments onMessageAction {W} _.

(** The host the component renders on. [toLocaleTimeString] formats a
    date in the host's default locale and time zone. *)
Record Host := { toLocaleTimeString : Date -> string }.

(** The agent line of a bubble, lines 64-73. When [percent] is [Some c]
    the pill shows [Math.round(c * 100)] followed by a percent sign. *)
Record Header := {
  agent : string;
  percent : option number
}.

(** The status pill, lines 118-132. *)
Record Badge := {
  badge_class : string;
  badge_text : string
}.

(** One rendered message, lines 32-134: a field per hole of the template.
    [index] is the position in the list; the entrance animation is delayed
    by [index * 0.1] seconds and starts [initial_x] pixels aside. *)
Record Item (H : Type) := {
  key : string;
  initial_x : Z;
  index : nat;
  row_class : string;
  avatar_class : string;
  avatar_icon : string * string;
  column_class : string;
  bubble_class : string;
  header : option Header;
  text : string;
  time_class : string;
  time_text : string;
  actions : option (list (View.Button H));
  badge : option Badge
}.
Arguments key {H} _.
Arguments index {H} _.
Arguments time_text {H} _.
Arguments actions {H} _.
Arguments badge {H} _.
Arguments header {H} _.

(** The placeholder of lines 138-143. *)
Definition awaiting : string := "Awaiting case file upload...".

(** The output of [ChatInterface]. *)
Record Output (H : Type) := {
  items : list (Item H);
  placeholder : option string
}.
Arguments items {H} _.
Arguments placeholder {H} _.

Definition status_name (s : Status) : string :=
  match s with
  | pending => "pending"
  | approved => "approved"
  | rejected => "rejected"
  | modified => "modified"
  end.

Definition is_attorney (r : Role) : bool :=
  match r with Attorney => true | _ => false end.

Definition is_pending (s : option Status) : bool :=
  match s with Some pending => true | _ => false end.

(** [message.requiresApproval && ...]: [undefined] and [false] are falsy. *)
Definition is_true (b : option bool) : bool :=
  match b with Some true => true | _ => false end.

(** [array.map((x, index) => f(x, index))] *)
Fixpoint mapi_from {A B : Type} (f : A -> nat -> B) (i : nat) (l : list A) : list B :=
  match l with
  | [] => []
  | x :: r => f x i :: mapi_from f (S i) r
  end.

Definition mapi {A B : Type} (f : A -> nat -> B) (l : list A) : list B :=
  mapi_from f 0 l.

Section Render.

Context {W : Type}.
Variable host : Host.
Variable props : Props W.

(** Lines 24-26: [onMessageAction?.(messageId, action)]. *)
Definition handleAction (messageId : string) (action : Action) : W -> W :=
  match onMessageAction props with
  | Some f => f messageId action
  | None => fun w => w
  end.

(** Lines 64-73. *)
Definition render_header (message : Message) : option Header :=
  if JS.truthy (agentName message)
  then Some {| agent := JS.interpolate (agentName message);
               percent := confidence message |}
  else None.

(** Lines 89-116. *)
Definition render_actions (message : Message) : option (list (View.Button (W -> W))) :=
  if is_true (requiresApproval message) && is_pending (status message)
  then Some
    [ {| View.label := "Approve";
         View.className := "bg-green-600 hover:bg-green-700 text-white shadow-glow hover:scale-105 transition-transform";
         View.disabled := false;
         View.onClick := handleAction (id message) approve |};
      {| View.label := "Modify";
         View.className := "bg-[#FFD700] hover:bg-[#FFD700]/90 text-[#8B0000] shadow-glow hover:scale-105 transition-transform";
         View.disabled := false;
         View.onClick := handleAction (id message) modify |};
      {| View.label := "Reject";
         View.className := "bg-red-600 hover:bg-red-700 text-white shadow-glow hover:scale-105 transition-transform";
         View.disabled := false;
         View.onClick := handleAction (id message) reject |} ]
  else None.

(** Lines 118-132: [message.status && message.status !== "pending"];
    every status name is a non-empty string, hence truthy. *)
Definition render_badge (message : Message) : option Badge :=
  match status message with
  | Some s =>
      if negb (is_pending (Some s))
      then Some
        {| badge_class :=
             "inline-block text-xs px-3 py-1 rounded-full font-sans font-semibold " ++
             match s with
             | approved => "bg-green-600 text-white"
             | rejected => "bg-red-600 text-white"
             | _ => "bg-[#FFD700] text-[#8B0000]"
             end;
           badge_text := JS.toUpperCase (status_name s) |}
      else None
  | None => None
  end.

(** Lines 32-134. *)
Definition render_message (message : Message) (index : nat) : Item (W -> W) :=
  {| key := id message;
     initial_x := if is_attorney (role message) then 20 else (-20);
     index := index;
     row_class := "flex gap-3 " ++
       (if is_attorney (role message) then "flex-row-reverse" else EmptyString);
     avatar_class :=
       "flex-shrink-0 w-10 h-10 rounded-full flex items-center justify-center shadow-lg " ++
       match role message with
       | AI => "bg-[#D71920]"
       | System => "bg-[#8B0000]"
       | Attorney => "bg-[#FFD700]"
       end;
     avatar_icon :=
       match role message with
       | AI => ("Bot", "w-5 h-5 text-white")
       | System => ("Bot", "w-5 h-5 text-[#FFD700]")
       | Attorney => ("User", "w-5 h-5 text-[#8B0000]")
       end;
     column_class := "flex-1 max-w-[75%] " ++
       (if is_attorney (role message) then "text-right" else EmptyString);
     bubble_class :=
       "inline-block rounded-2xl px-5 py-3 shadow-glow " ++
       match role message with
       | AI => "bg-[#FFF8DC] text-gray-900"
       | System => "bg-[#8B0000]/20 border-2 border-[#FFD700]/50 text-white backdrop-blur-sm"
       | Attorney => "bg-[#FFD700] text-[#8B0000]"
       end;
     header := render_header message;
     text := content message;
     time_class :=
       "text-xs mt-2 font-sans " ++
       match role message with
       | AI => "text-gray-600"
       | System => "text-[#FFD700]/80"
       | Attorney => "text-[#8B0000]/70"
       end;
     time_text := toLocaleTimeString host (timestamp message);
     actions := render_actions message;
     badge := render_badge message |}.

(** Lines 23-146. *)
Definition ChatInterface : Output (W -> W) :=
  {| items := mapi render_message (messages props);
     placeholder :=
       if (List.length (messages props) =? 0)%nat then Some awaiting else None |}.

End Render.

End Chat.

(** ** Concrete inputs used by the examples *)

Module Samples.
Import Eff Toolbar Chat.

Definition ann : ContextMetadata :=
  {| client_name := Some "Ann Lee"; phone := None |}.

Definition anonymous : ContextMetadata :=
  {| client_name := Some EmptyString; phone := Some "555-0199" |}.

(** A network that is down: [fetch] rejects. *)
Definition offline : Env :=
  {| NEXT_PUBLIC_API_URL := None;
     network := fun _ => inl (JS.ErrorObject "Failed to fetch") |}.

(** A backend that answers 500. *)
Definition failing : Env :=
  {| NEXT_PUBLIC_API_URL := Some "https://api.example.org";
     network := fun _ => inr {| ok := false; Toolbar.status := 500%Z; json := inr PNull |} |}.

(** A backend that accepts the call. *)
Definition accepting : Env :=
  {| NEXT_PUBLIC_API_URL := Some EmptyString;
     network := fun _ =>
       inr {| ok := true; Toolbar.status := 200%Z; json := inr (PData (Some "Dialing")) |} |}.

Definition two_digits (n : Z) : string :=
  JS.of_int (n / 10)%Z ++ JS.of_int (n mod 10)%Z.

(** A 24-hour clock [HH:mm:ss] for the time zone [offset] minutes east
    of UTC. *)
Definition clock (offset : Z) (d : Date) : string :=
  let s := (((time_value d / 1000) + offset * 60) mod 86400)%Z in
  two_digits (s / 3600)%Z ++ ":" ++ two_digits ((s / 60) mod 60)%Z ++ ":" ++ two_digits (s mod 60)%Z.

Definition london : Host := {| toLocaleTimeString := clock 0 |}.
Definition paris : Host := {| toLocaleTimeString := clock 60 |}.

(** Noon UTC, 1 January 2025. *)
Definition noon : Date := {| time_value := 1735732800000%Z |}.

(** A system notice: nothing to approve. *)
Definition notice : Message :=
  {| id := "m1"; role := System; content := "Case file received";
     timestamp := noon; agentName := None; confidence := None;
     requiresApproval := None; status := None |}.

(** A draft that waits for the attorney. *)
Definition draft : Message :=
  {| id := "m2"; role := AI; content := "Draft letter to the insurer";
     timestamp := noon; agentName := Some "Communication Guru";
     confidence := None;
     requiresApproval := Some true; status := Some pending |}.

(** A draft the attorney has approved. *)
Definition settled : Message :=
  {| id := "m3"; role := AI; content := "Records request";
     timestamp := noon; agentName := None; confidence := None;
     requiresApproval := Some true; status := Some approved |}.

(** A parent that logs every call of its callback. *)
Definition Log := list (string * Action).

Definition record (messageId : string) (action : Action) (log : Log) : Log :=
  List.app log [(messageId, action)].

Definition watched (l : list Message) : Props Log :=
  {| messages := l; onMessageAction := Some record |}.

Definition unwatched (l : list Message) : Props Log :=
  {| messages := l; onMessageAction := None |}.

(** The log after clicking every button of every item in turn. *)
Definition click_all (o : Output (Log -> Log)) : Log :=
  fold_left (fun log b => View.onClick b log)
    (flat_map (fun v => match actions v with Some bs => bs | None => [] end) (items o))
    [].

End Samples.

(** ** Reading back one quoted code unit *)

Module JSONRead.
Import JSON.

Definition hex_value (c : ascii) : option nat :=
  let n := nat_of_ascii c in
  if (48 <=? n)%nat && (n <=? 57)%nat then Some (n - 48)%nat
  else if (97 <=? n)%nat && (n <=? 102)%nat then Some (n - 87)%nat
  else None.

(** The escape letter after a backslash, for the two-character escapes. *)
Definition short_escape (e : ascii) : option ascii :=
  let n := nat_of_ascii e in
  if (n =? 34)%nat then Some dquote
  else if (n =? 92)%nat then Some backslash
  else if (n =? 98)%nat then Some (ascii_of_nat 8)
  else if (n =? 102)%nat then Some (ascii_of_nat 12)
  else if (n =? 110)%nat then Some (ascii_of_nat 10)
  else if (n =? 114)%nat then Some (ascii_of_nat 13)
  else if (n =? 116)%nat then Some (ascii_of_nat 9)
  else None.

(** The code unit at the front of the inside of a quoted string and what
    follows it; [None] at the closing quote or on malformed text. *)
Definition read1 (s : string) : option (ascii * string) :=
  match s with
  | EmptyString => None
  | String c r =>
      if (nat_of_ascii c =? 34)%nat then None
      else if (nat_of_ascii c =? 92)%nat then
        match r with
        | EmptyString => None
        | String e r' =>
            if (nat_of_ascii e =? 117)%nat then
              match r' with
              | String z1 (String z2 (String h (String l r''))) =>
                  if (nat_of_ascii z1 =? 48)%nat && (nat_of_ascii z2 =? 48)%nat then
                    match hex_value h, hex_value l with
                    | Some a, Some b => Some (ascii_of_nat (16 * a + b), r'')
                    | _, _ => None
                    end
                  else None
              | _ => None
              end
            else
              match short_escape e with
              | Some c' => Some (c', r')
              | None => None
              end
        end
      else Some (c, r)
  end.

End JSONRead.

(** ** Sessions: clicks on the toolbar and replies of the network *)

Module Session.
Import Eff Toolbar Phases.

(** The three buttons of the toolbar, and their places in it. *)
Inductive Choice := CallClient | SendEmail | ScheduleMeeting.

Definition position (c : Choice) : nat :=
  match c with
  | CallClient => 0
  | SendEmail => 1
  | ScheduleMeeting => 2
  end.

(** What can happen to the mounted toolbar: a click on one of its
    buttons, as rendered with the props and surroundings of that moment,
    or the answer to the oldest request still waiting for one. *)
Inductive Input :=
| Click (env : Env) (metadata : option ContextMetadata) (c : Choice)
| Reply (reply : JS.Thrown + Response).

(** The toolbar between two events: its world, and the calls suspended
    at line 33, oldest first. *)
Record Page := {
  world : World;
  pending : list ContextMetadata
}.

Definition fresh : Page := {| world := initial; pending := [] |}.

(** The handler of button [b], chosen as [c], as far as it runs within
    the click. *)
Definition start (env : Env) (metadata : option ContextMetadata) (c : Choice)
    (b : View.Button (M unit)) (p : Page) : Page :=
  match c with
  | CallClient =>
      match begin env metadata (world p) with
      | (Settled _, w') => {| world := w'; pending := pending p |}
      | (Suspended md, w') => {| world := w'; pending := pending p ++ [md] |}
      end
  | _ => {| world := exec (View.onClick b) (world p); pending := pending p |}
  end.

(** One event. The toolbar is rendered from the current state (line 15
    and lines 81-112); a disabled button takes no click. *)
Definition step (i : Input) (p : Page) : Page :=
  match i with
  | Click env metadata c =>
      match nth_error (ActionToolbar env metadata (state (world p))) (position c) with
      | Some b => if View.disabled b then p else start env metadata c b p
      | None => p
      end
  | Reply reply =>
      match pending p with
      | md :: rest => {| world := exec (resume md reply) (world p); pending := rest |}
      | [] => p
      end
  end.

Definition run (inputs : list Input) (p : Page) : Page :=
  fold_left (fun p i => step i p) inputs p.

(** The flag tells whether a call is waiting: none and [isLoading] off,
    or exactly one and [isLoading] on. *)
Definition coherent (p : Page) : bool :=
  match pending p with
  | [] => negb (isLoading (state (world p)))
  | [_] => isLoading (state (world p))
  | _ => false
  end.

Definition is_reply (i : Input) : bool :=
  match i with
  | Reply _ => true
  | Click _ _ _ => false
  end.

End Session.

(** ** More concrete inputs *)

Module MoreSamples.
Import Eff Toolbar Chat Samples Session.

(** The same client, with an empty phone property. *)
Definition ann_blank_phone : ContextMetadata :=
  {| client_name := Some "Ann Lee"; phone := Some EmptyString |}.

(** A backend that answers 200 with a body that is not JSON. *)
Definition garbled : Env :=
  {| NEXT_PUBLIC_API_URL := None;
     network := fun _ =>
       inr {| ok := true; Toolbar.status := 200%Z;
              json := inl (JS.ErrorObject "Unexpected token < in JSON") |} |}.

(** A backend whose reply has a number as its message. *)
Definition numbering : Env :=
  {| NEXT_PUBLIC_API_URL := None;
     network := fun _ =>
       inr {| ok := true; Toolbar.status := 200%Z; json := inr (PValue "42") |} |}.

(** A host on Western European time in 2025: UTC in winter, one hour
    ahead from 30 March, 01:00 UTC, to 26 October, 01:00 UTC. *)
Definition lisbon : Host :=
  {| toLocaleTimeString := fun d =>
       if (1743296400000 <=? time_value d)%Z && (time_value d <? 1761440400000)%Z
       then clock 60 d
       else clock 0 d |}.

(** Noon UTC, 1 July 2025. *)
Definition summer_noon : Date := {| time_value := 1751371200000%Z |}.

(** A message of that summer day. *)
Definition postcard : Message :=
  {| id := "m4"; role := Attorney; content := "Back on Monday";
     timestamp := summer_noon; agentName := None; confidence := None;
     requiresApproval := None; status := None |}.

End MoreSamples.

(** * Properties of the action toolbar *)

Module ToolbarFacts.
Import Eff Toolbar Samples.

Lemma truthy_nonempty (name : string) :
  name <> EmptyString -> JS.truthy (Some name) = true.
Proof.
  intros Hne. simpl. apply negb_true_iff. apply String.eqb_neq. exact Hne.
Qed.

Lemma truthy_inv (v : option string) :
  JS.truthy v = true -> exists s, v = Some s /\ s <> EmptyString.
Proof.
  destruct v as [s|]; simpl; intros H; [|discriminate].
  exists s. split; [reflexivity|].
  apply String.eqb_neq. apply negb_true_iff. exact H.
Qed.

Lemma or_falsy (v : option string) (d : string) :
  v = None \/ v = Some EmptyString -> JS.or v d = d.
Proof. intros [-> | ->]; reflexivity. Qed.

Lemma guard_inv (metadata : option ContextMetadata) :
  JS.truthy (opt_client_name metadata) = true ->
  exists md, metadata = Some md /\ JS.truthy (client_name md) = true.
Proof.
  destruct metadata as [md|]; simpl; intros H; [|discriminate].
  exists md. split; [reflexivity | exact H].
Qed.

Lemma requests_app (t u : list Event) :
  requests (t ++ u) = (requests t ++ requests u)%list.
Proof.
  induction t as [|ev t IH]; simpl; [reflexivity|].
  destruct ev; simpl; rewrite IH; reflexivity.
Qed.

Lemma updates_app (t u : list Event) :
  updates (t ++ u) = (updates t ++ updates u)%list.
Proof.
  induction t as [|ev t IH]; simpl; [reflexivity|].
  destruct ev; simpl; rewrite IH; reflexivity.
Qed.

Lemma toasts_app (t u : list Event) :
  toasts (t ++ u) = (toasts t ++ toasts u)%list.
Proof.
  induction t as [|ev t IH]; simpl; [reflexivity|].
  destruct ev; simpl; rewrite IH; reflexivity.
Qed.

(** Every run that passes the guard of line 19 returns normally, and its
    trace is: loading on, the request, the settlement, loading off. *)
Lemma handleCallClient_run (env : Env) (md : ContextMetadata) (w : World) :
  JS.truthy (client_name md) = true ->
  handleCallClient env (Some md) w =
    (Returned tt,
     {| state := {| isLoading := false |};
        trace := trace w ++
                 [SetIsLoading true; Fetched (callRequest env md)] ++
                 settle md (network env (callRequest env md)) ++
                 [SetIsLoading false] |}).
Proof.
  intros Hg. unfold handleCallClient.
  change (opt_client_name (Some md)) with (client_name md). rewrite Hg.
  unfold settle, bind, try_catch_finally, setIsLoading, fetch, deref, emit,
    await, toast, console_error, data_message, throw, ret, bind.
  simpl.
  destruct (network env (callRequest env md)) as [e | response]; simpl.
  - rewrite <- !app_assoc. reflexivity.
  - destruct (ok response); simpl.
    + destruct (json response) as [e | [| message | j]]; simpl;
        rewrite <- !app_assoc; reflexivity.
    + rewrite <- !app_assoc. reflexivity.
Qed.

Lemma settle_quiet (md : ContextMetadata) (reply : JS.Thrown + Response) :
  requests (settle md reply) = [] /\ updates (settle md reply) = [].
Proof.
  unfold settle.
  destruct reply as [e | response]; [split; reflexivity|].
  destruct (ok response); [|split; reflexivity].
  destruct (json response) as [e | [| message | j]]; split; reflexivity.
Qed.

(** C1. For a metadata value whose [client_name] is present and not empty,
    [handleCallClient] issues exactly one HTTP request: a POST to the path
    [/call_client] under the configured API base URL, whose body is the JSON
    text of an object with the fields [client_name], [phone] and [reason]. *)
Theorem call_client_posts_once
    (env : Env) (md : ContextMetadata) (name : string) (w : World) :
  client_name md = Some name ->
  name <> EmptyString ->
  requests (trace (exec (handleCallClient env (Some md)) w)) =
  (requests (trace w) ++
   [ {| url := JS.or (NEXT_PUBLIC_API_URL env) "http://localhost:8000" ++ "/call_client";
        method := "POST";
        headers := [("Content-Type", "application/json")];
        body := JSON.stringify
                  [ ("client_name", name);
                    ("phone", JS.or (phone md) "555-0100");
                    ("reason", "Case review follow-up") ] |} ])%list.
Proof.
  intros Hname Hne.
  assert (Hg : JS.truthy (client_name md) = true).
  { rewrite Hname. apply truthy_nonempty. exact Hne. }
  unfold exec. rewrite (handleCallClient_run env md w Hg). cbn [snd trace].
  rewrite !requests_app.
  destruct (settle_quiet md (network env (callRequest env md))) as [Hq _].
  rewrite Hq. cbn [requests app]. rewrite ?app_nil_r.
  unfold callRequest, callPayload, apiUrl. rewrite Hname. reflexivity.
Qed.

Lemma call_client_posts_once_witness :
  requests (trace (exec (handleCallClient accepting (Some ann)) initial)) =
  (requests (trace initial) ++
   [ {| url := JS.or (NEXT_PUBLIC_API_URL accepting) "http://localhost:8000" ++ "/call_client";
        method := "POST";
        headers := [("Content-Type", "application/json")];
        body := JSON.stringify
                  [ ("client_name", "Ann Lee");
                    ("phone", JS.or (phone ann) "555-0100");
                    ("reason", "Case review follow-up") ] |} ])%list.
Proof.
  apply (call_client_posts_once accepting ann "Ann Lee" initial).
  - reflexivity.
  - discriminate.
Defined.

(** C3. When the guard is passed and the [fetch] rejects, or resolves to a
    response that is not ok, the handler catches the error, logs it, shows
    the destructive toast [Call Failed] and returns normally: nothing is
    thrown to the caller. *)
Theorem call_failure_is_caught
    (env : Env) (md : ContextMetadata) (w : World) (error : JS.Thrown) :
  JS.truthy (client_name md) = true ->
  (network env (callRequest env md) = inl error \/
   exists response,
     network env (callRequest env md) = inr response /\
     ok response = false /\
     error = JS.ErrorObject ("API error: " ++ JS.of_int (status response))) ->
  handleCallClient env (Some md) w =
    (Returned tt,
     {| state := {| isLoading := false |};
        trace := trace w ++
          [ SetIsLoading true;
            Fetched (callRequest env md);
            ConsoleError "[v0] Call error:" error;
            Toasted {| title := "Call Failed";
                       description := match error with
                                      | JS.ErrorObject m => m
                                      | JS.OtherThrown _ => "Unknown error"
                                      end;
                       variant := Some "destructive" |};
            SetIsLoading false ] |}).
Proof.
  intros Hg Hfail. rewrite (handleCallClient_run env md w Hg).
  destruct Hfail as [Hrej | (response & Hres & Hok & ->)].
  - rewrite Hrej. reflexivity.
  - rewrite Hres. unfold settle. rewrite Hok. reflexivity.
Qed.

Lemma call_failure_is_caught_witness :
  handleCallClient failing (Some ann) initial =
    (Returned tt,
     {| state := {| isLoading := false |};
        trace :=
          [ SetIsLoading true;
            Fetched (callRequest failing ann);
            ConsoleError "[v0] Call error:" (JS.ErrorObject "API error: 500");
            Toasted {| title := "Call Failed";
                       description := "API error: 500";
                       variant := Some "destructive" |};
            SetIsLoading false ] |}).
Proof.
  apply (call_failure_is_caught failing ann initial (JS.ErrorObject "API error: 500")).
  - reflexivity.
  - right. exists {| ok := false; status := 500%Z; json := inr PNull |}.
    repeat split; reflexivity.
Defined.

(** The click of a call that passes the guard: flag on, request out,
    handler suspended. *)
Lemma begin_passes (env : Env) (md : ContextMetadata) (w : World) :
  JS.truthy (client_name md) = true ->
  Phases.begin env (Some md) w =
    (Phases.Suspended md,
     {| state := {| isLoading := true |};
        trace := trace w ++ [SetIsLoading true; Fetched (callRequest env md)] |}).
Proof.
  intros Hg. unfold Phases.begin.
  change (opt_client_name (Some md)) with (client_name md). rewrite Hg.
  unfold bind, setIsLoading, deref, emit, ret. simpl.
  rewrite <- !app_assoc. reflexivity.
Qed.

(** The rest of the call, whatever the reply. *)
Lemma resume_run (md : ContextMetadata) (reply : JS.Thrown + Response) (w : World) :
  Phases.resume md reply w =
    (Returned tt,
     {| state := {| isLoading := false |};
        trace := trace w ++ settle md reply ++ [SetIsLoading false] |}).
Proof.
  unfold Phases.resume, Phases.onError, settle, bind, try_catch_finally,
    setIsLoading, emit, await, toast, console_error, data_message, throw, ret.
  destruct reply as [e | response]; simpl.
  - rewrite <- !app_assoc. reflexivity.
  - destruct (ok response); simpl.
    + destruct (json response) as [e | [| message | j]]; simpl;
        rewrite <- !app_assoc; reflexivity.
    + rewrite <- !app_assoc. reflexivity.
Qed.

(** The handler run in one go is its first part followed, if it was
    suspended, by the rest on the network's reply. *)
Lemma handleCallClient_phases
    (env : Env) (metadata : option ContextMetadata) (w : World) :
  handleCallClient env metadata w =
    match Phases.begin env metadata w with
    | (Phases.Settled o, w') => (o, w')
    | (Phases.Suspended md, w') =>
        Phases.resume md (network env (callRequest env md)) w'
    end.
Proof.
  destruct (JS.truthy (opt_client_name metadata)) eqn:Hguard.
  - destruct (guard_inv metadata Hguard) as (md & -> & Hg).
    rewrite (begin_passes env md w Hg), resume_run, (handleCallClient_run env md w Hg).
    cbn [trace]. rewrite <- !app_assoc. reflexivity.
  - unfold handleCallClient, Phases.begin. rewrite Hguard. cbn [negb].
    unfold outcome, exec. destruct (toast missingInformation w). reflexivity.
Qed.

(** C4. On every run of [handleCallClient] that passes the guard: within
    the click [isLoading] is set to [true], then the request is issued,
    and the handler is suspended with [isLoading] on; rendered from that
    state, the Call Client button, whose [onClick] is this handler, is
    disabled; whatever the reply (success, response not ok, error thrown),
    the rest of the handler returns, touches the flag only in its last
    step and leaves [isLoading] off. The whole run is these two parts one
    after the other. The flag is all the state there is, the button is
    disabled exactly when it is on, and the handler itself never reads
    it. *)
Theorem loading_flag_brackets_the_call
    (env : Env) (metadata : option ContextMetadata) (w : World) :
  JS.truthy (opt_client_name metadata) = true ->
  exists md loading,
    metadata = Some md /\
    loading =
      {| state := {| isLoading := true |};
         trace := trace w ++ [SetIsLoading true; Fetched (callRequest env md)] |} /\
    Phases.begin env metadata w = (Phases.Suspended md, loading) /\
    (exists b,
       nth_error (ActionToolbar env metadata (state loading)) 0 = Some b /\
       View.label b = "Call Client" /\
       View.disabled b = true /\
       View.onClick b = handleCallClient env metadata) /\
    (forall reply,
       exists between,
         Phases.resume md reply loading =
           (Returned tt,
            {| state := {| isLoading := false |};
               trace := trace loading ++ between ++ [SetIsLoading false] |}) /\
         requests between = [] /\ updates between = []) /\
    handleCallClient env metadata w =
      Phases.resume md (network env (callRequest env md)) loading /\
    (forall s : State,
       map (fun b => (View.label b, View.disabled b)) (ActionToolbar env metadata s) =
         [ ("Call Client", isLoading s); ("Send Email", false); ("Schedule Meeting", false) ]) /\
    (forall s1 s2 : State, isLoading s1 = isLoading s2 -> s1 = s2) /\
    (forall (flag : bool) (history : list Event),
       outcome (handleCallClient env metadata)
         {| state := {| isLoading := flag |}; trace := history |} =
       outcome (handleCallClient env metadata)
         {| state := {| isLoading := false |}; trace := history |} /\
       trace (exec (handleCallClient env metadata)
                {| state := {| isLoading := flag |}; trace := history |}) =
       trace (exec (handleCallClient env metadata)
                {| state := {| isLoading := false |}; trace := history |})).
Proof.
  intros Hguard. destruct (guard_inv metadata Hguard) as (md & -> & Hg).
  exists md. eexists. split; [reflexivity|]. split; [reflexivity|].
  split; [apply (begin_passes env md w Hg)|].
  split.
  { eexists. split; [reflexivity|]. cbn. repeat split. }
  split.
  { intros reply. exists (settle md reply). rewrite resume_run.
    destruct (settle_quiet md reply) as [Hq Hu]. repeat split; assumption. }
  split.
  { rewrite handleCallClient_phases, (begin_passes env md w Hg). reflexivity. }
  split; [intros s; reflexivity|].
  split.
  { intros [b1] [b2]. cbn. intros ->. reflexivity. }
  intros flag history. unfold outcome, exec.
  rewrite !(handleCallClient_run env md _ Hg). split; reflexivity.
Qed.

Lemma loading_flag_brackets_the_call_witness :
  exists b,
    Phases.begin offline (Some ann) initial =
      (Phases.Suspended ann,
       {| state := {| isLoading := true |};
          trace := [SetIsLoading true; Fetched (callRequest offline ann)] |}) /\
    nth_error (ActionToolbar offline (Some ann) {| isLoading := true |}) 0 = Some b /\
    View.disabled b = true /\
    isLoading (state (exec (handleCallClient offline (Some ann)) initial)) = false.
Proof.
  destruct (loading_flag_brackets_the_call offline (Some ann) initial eq_refl)
    as (md & loading & Hmd & Hloading & Hbegin & (b & Hb & _ & Hdis & _) & Hrest & Hrun & _).
  injection Hmd as <-. subst loading.
  exists b. split; [exact Hbegin|]. split; [exact Hb|]. split; [exact Hdis|].
  unfold exec. rewrite Hrun.
  destruct (Hrest (network offline (callRequest offline ann))) as (between & -> & _).
  reflexivity.
Defined.

(** C5. Send Email and Schedule Meeting are stubs: each run shows exactly
    one toast ([Email Draft Created], [Calendar Opened]), returns, issues
    no HTTP request and leaves the component state as it was. *)
Theorem email_and_calendar_are_stubs (w : World) :
  handleSendEmail w =
    (Returned tt,
     {| state := state w;
        trace := trace w ++
          [Toasted {| title := "Email Draft Created";
                      description := "Opening email client...";
                      variant := None |}] |}) /\
  handleScheduleMeeting w =
    (Returned tt,
     {| state := state w;
        trace := trace w ++
          [Toasted {| title := "Calendar Opened";
                      description := "Select a meeting time...";
                      variant := None |}] |}) /\
  requests (trace (exec handleSendEmail w)) = requests (trace w) /\
  requests (trace (exec handleScheduleMeeting w)) = requests (trace w) /\
  updates (trace (exec handleSendEmail w)) = updates (trace w) /\
  updates (trace (exec handleScheduleMeeting w)) = updates (trace w).
Proof.
  repeat split;
    unfold exec, handleSendEmail, handleScheduleMeeting, toast, emit; cbn [snd trace];
    rewrite ?requests_app, ?updates_app; cbn [requests updates];
    rewrite ?app_nil_r; reflexivity.
Qed.

(** C6. If [metadata] is [null], or its [client_name] is absent or empty,
    [handleCallClient] shows the destructive toast [Missing Information] and
    returns: no HTTP request, no update of [isLoading], state unchanged. *)
Theorem missing_client_is_reported
    (env : Env) (metadata : option ContextMetadata) (w : World) :
  (metadata = None \/
   exists md, metadata = Some md /\
              (client_name md = None \/ client_name md = Some EmptyString)) ->
  handleCallClient env metadata w =
    (Returned tt,
     {| state := state w;
        trace := trace w ++
          [Toasted {| title := "Missing Information";
                      description := "Client information not available";
                      variant := Some "destructive" |}] |}) /\
  requests (trace (exec (handleCallClient env metadata) w)) = requests (trace w) /\
  updates (trace (exec (handleCallClient env metadata) w)) = updates (trace w).
Proof.
  intros Hmissing.
  assert (Hg : JS.truthy (opt_client_name metadata) = false).
  { destruct Hmissing as [-> | (md & -> & [Hn | Hn])]; simpl; try rewrite Hn; reflexivity. }
  unfold exec, handleCallClient. rewrite Hg. cbn [negb].
  unfold toast, emit. cbn [snd trace].
  rewrite requests_app, updates_app. cbn [requests updates]. rewrite !app_nil_r.
  repeat split; reflexivity.
Qed.

Lemma missing_client_is_reported_witness :
  handleCallClient accepting (Some anonymous) initial =
    (Returned tt,
     {| state := state initial;
        trace := trace initial ++
          [Toasted {| title := "Missing Information";
                      description := "Client information not available";
                      variant := Some "destructive" |}] |}).
Proof.
  apply (missing_client_is_reported accepting (Some anonymous) initial).
  right. exists anonymous. split; [reflexivity | right; reflexivity].
Defined.

(** C8. In the request that [handleCallClient] issues, the [phone] field is
    [555-0100] whenever [metadata.phone] is absent or empty, the [reason]
    field is always [Case review follow-up], and the URL is built on
    [http://localhost:8000] whenever [NEXT_PUBLIC_API_URL] is unset or
    empty. *)
Theorem call_request_defaults
    (env : Env) (md : ContextMetadata) (w : World) :
  JS.truthy (client_name md) = true ->
  requests (trace (exec (handleCallClient env (Some md)) w)) =
    (requests (trace w) ++ [callRequest env md])%list /\
  body (callRequest env md) = JSON.stringify (callPayload md) /\
  (phone md = None \/ phone md = Some EmptyString ->
   JSON.get "phone" (callPayload md) = Some "555-0100") /\
  JSON.get "reason" (callPayload md) = Some "Case review follow-up" /\
  (NEXT_PUBLIC_API_URL env = None \/ NEXT_PUBLIC_API_URL env = Some EmptyString ->
   url (callRequest env md) = "http://localhost:8000/call_client").
Proof.
  intros Hg.
  destruct (truthy_inv _ Hg) as (name & Hname & _).
  split; [|split; [|split; [|split]]].
  - unfold exec. rewrite (handleCallClient_run env md w Hg). cbn [snd trace].
    rewrite !requests_app.
    destruct (settle_quiet md (network env (callRequest env md))) as [Hq _].
    rewrite Hq. cbn [requests app]. rewrite ?app_nil_r. reflexivity.
  - reflexivity.
  - intros Hphone. unfold callPayload. rewrite Hname, (or_falsy _ _ Hphone). reflexivity.
  - unfold callPayload. rewrite Hname. reflexivity.
  - intros Hurl. unfold callRequest, apiUrl. rewrite (or_falsy _ _ Hurl). reflexivity.
Qed.

Lemma call_request_defaults_witness :
  JSON.get "phone" (callPayload ann) = Some "555-0100" /\
  JSON.get "reason" (callPayload ann) = Some "Case review follow-up" /\
  url (callRequest accepting ann) = "http://localhost:8000/call_client".
Proof.
  destruct (call_request_defaults accepting ann initial eq_refl)
    as (_ & _ & Hphone & Hreason & Hurl).
  split; [|split].
  - apply Hphone. left. reflexivity.
  - exact Hreason.
  - apply Hurl. right. reflexivity.
Defined.

(** What the handler appends to the trace does not depend on what is
    already there, nor on the state. *)
Lemma handleCallClient_appends (env : Env) (metadata : option ContextMetadata) :
  exists events,
    forall w,
      outcome (handleCallClient env metadata) w = Returned tt /\
      trace (exec (handleCallClient env metadata) w) = (trace w ++ events)%list.
Proof.
  destruct (JS.truthy (opt_client_name metadata)) eqn:Hguard.
  - destruct (guard_inv metadata Hguard) as (md & -> & Hg).
    eexists. intros w. unfold outcome, exec.
    rewrite (handleCallClient_run env md w Hg). split; reflexivity.
  - exists [Toasted missingInformation]. intros w.
    unfold outcome, exec, handleCallClient. rewrite Hguard. split; reflexivity.
Qed.

End ToolbarFacts.

(** * Properties of the chat-message renderer *)

Module ChatFacts.
Import Chat Samples.

Section Lists.

Context {A B : Type}.

Lemma mapi_from_nth (f : A -> nat -> B) (l : list A) :
  forall i n,
    nth_error (mapi_from f i l) n =
    option_map (fun x => f x (i + n)%nat) (nth_error l n).
Proof.
  induction l as [|x r IH]; intros i n.
  - destruct n; reflexivity.
  - destruct n as [|n]; simpl.
    + rewrite Nat.add_0_r. reflexivity.
    + rewrite IH. rewrite Nat.add_succ_r. reflexivity.
Qed.

Lemma mapi_from_length (f : A -> nat -> B) (l : list A) :
  forall i, List.length (mapi_from f i l) = List.length l.
Proof.
  induction l as [|x r IH]; intros i; simpl; [reflexivity|].
  rewrite IH. reflexivity.
Qed.

Lemma mapi_from_ext_in (f g : A -> nat -> B) (l : list A) :
  (forall x k, In x l -> f x k = g x k) ->
  forall i, mapi_from f i l = mapi_from g i l.
Proof.
  induction l as [|x r IH]; intros Hfg i; simpl; [reflexivity|].
  rewrite (Hfg x i (or_introl eq_refl)).
  rewrite IH; [reflexivity|].
  intros y k Hy. apply Hfg. right. exact Hy.
Qed.

End Lists.

Section Rendered.

Context {W : Type}.
Variable host : Host.
Variable props : Props W.

(** The [n]-th item of the output is the rendering of the [n]-th message. *)
Lemma item_of_message (n : nat) (m : Message) :
  nth_error (messages props) n = Some m ->
  nth_error (items (ChatInterface host props)) n = Some (render_message host props m n).
Proof.
  intros Hm. unfold ChatInterface, mapi. cbn [items].
  rewrite mapi_from_nth, Hm. reflexivity.
Qed.

Lemma items_length :
  List.length (items (ChatInterface host props)) = List.length (messages props).
Proof. apply mapi_from_length. Qed.

Lemma actions_shown (m : Message) :
  render_actions props m <> None <->
  requiresApproval m = Some true /\ status m = Some pending.
Proof.
  unfold render_actions.
  destruct (requiresApproval m) as [[|]|]; destruct (status m) as [[| | |]|];
    simpl; split; try (intros [? ?]); try discriminate; try congruence; auto.
Qed.

Lemma badge_shown (m : Message) :
  render_badge m <> None <-> exists s, status m = Some s /\ s <> pending.
Proof.
  unfold render_badge.
  destruct (status m) as [[| | |]|]; simpl; split;
    try (intros (s & Hs & Hne); inversion Hs; subst; congruence);
    try congruence;
    intros _; eexists; (split; [reflexivity | discriminate]).
Qed.

End Rendered.

(** C2, as stated, fails: a message that does not wait for approval is
    rendered without any button, and with no callback supplied clicking the
    buttons of a pending message calls nothing. *)
Lemma not_every_message_offers_actions :
  In notice (messages (watched [notice; draft])) /\
  map (fun v => match actions v with
                | Some bs => map View.label bs
                | None => []
                end)
      (items (ChatInterface london (watched [notice; draft]))) =
    [ []; ["Approve"; "Modify"; "Reject"] ] /\
  click_all (ChatInterface london (unwatched [draft])) = [].
Proof.
  split; [left; reflexivity | split; reflexivity].
Qed.

(** C2, amended. For every message of the list whose [requiresApproval] is
    true and whose status is [pending], the renderer offers the three
    buttons Approve, Modify and Reject; a click on one of them is exactly
    one call of [onMessageAction], when that callback is supplied, with the
    message's id and the chosen action, and does nothing when it is not. *)
Theorem pending_message_offers_three_actions
    {W : Type} (host : Host) (props : Props W) (n : nat) (m : Message) :
  nth_error (messages props) n = Some m ->
  requiresApproval m = Some true ->
  status m = Some pending ->
  exists v b1 b2 b3,
    nth_error (items (ChatInterface host props)) n = Some v /\
    key v = id m /\
    actions v = Some [b1; b2; b3] /\
    map View.label [b1; b2; b3] = ["Approve"; "Modify"; "Reject"] /\
    map View.disabled [b1; b2; b3] = [false; false; false] /\
    (forall f, onMessageAction props = Some f ->
       View.onClick b1 = f (id m) approve /\
       View.onClick b2 = f (id m) modify /\
       View.onClick b3 = f (id m) reject) /\
    (onMessageAction props = None ->
       forall w, View.onClick b1 w = w /\ View.onClick b2 w = w /\ View.onClick b3 w = w).
Proof.
  intros Hm Happroval Hstatus.
  eexists. eexists. eexists. eexists.
  split; [apply (item_of_message host props n m Hm)|].
  unfold render_message. cbn [key actions].
  unfold render_actions. rewrite Happroval, Hstatus. cbn [is_true is_pending andb].
  split; [reflexivity|]. split; [reflexivity|].
  cbn [map View.label View.disabled View.onClick].
  split; [reflexivity|]. split; [reflexivity|].
  unfold handleAction. split.
  - intros f ->. repeat split.
  - intros ->. intros w. repeat split.
Qed.

Lemma pending_message_offers_three_actions_witness :
  exists v b1 b2 b3,
    nth_error (items (ChatInterface london (watched [notice; draft]))) 1 = Some v /\
    actions v = Some [b1; b2; b3] /\
    View.onClick b2 [] = [("m2", modify)].
Proof.
  destruct (pending_message_offers_three_actions london (watched [notice; draft]) 1 draft
              eq_refl eq_refl eq_refl)
    as (v & b1 & b2 & b3 & Hv & _ & Hbs & _ & _ & Hcall & _).
  exists v, b1, b2, b3. split; [exact Hv|]. split; [exact Hbs|].
  destruct (Hcall record eq_refl) as (_ & -> & _). reflexivity.
Defined.

(** C7. The output has one item per message. The buttons are rendered only
    for a message whose [requiresApproval] is true and whose status is
    [pending], so every rendered [onClick] calls back with the id of such a
    message; the status badge is rendered exactly when the status is
    present and is not [pending]. *)
Theorem buttons_only_when_pending
    {W : Type} (host : Host) (props : Props W) :
  List.length (items (ChatInterface host props)) = List.length (messages props) /\
  forall n m,
    nth_error (messages props) n = Some m ->
    exists v,
      nth_error (items (ChatInterface host props)) n = Some v /\
      (actions v <> None <->
         requiresApproval m = Some true /\ status m = Some pending) /\
      (forall bs b,
         actions v = Some bs -> In b bs ->
         requiresApproval m = Some true /\ status m = Some pending /\
         exists a, View.onClick b = handleAction props (id m) a) /\
      (badge v <> None <-> exists s, status m = Some s /\ s <> pending).
Proof.
  split; [apply items_length|].
  intros n m Hm. exists (render_message host props m n).
  split; [apply (item_of_message host props n m Hm)|].
  cbn [render_message actions badge].
  split; [apply actions_shown|]. split; [|apply badge_shown].
  intros bs b Hbs Hb.
  assert (Hshown : render_actions props m <> None) by congruence.
  apply actions_shown in Hshown. destruct Hshown as [Happroval Hstatus].
  split; [exact Happroval|]. split; [exact Hstatus|].
  unfold render_actions in Hbs. rewrite Happroval, Hstatus in Hbs.
  cbn [is_true is_pending andb] in Hbs. injection Hbs as <-.
  destruct Hb as [<- | [<- | [<- | []]]]; eexists; reflexivity.
Qed.

Lemma buttons_only_when_pending_witness :
  exists v,
    nth_error (items (ChatInterface london (watched [notice; draft; settled]))) 2 = Some v /\
    actions v = None /\
    badge v <> None.
Proof.
  destruct (buttons_only_when_pending london (watched [notice; draft; settled]))
    as (_ & Hall).
  destruct (Hall 2%nat settled eq_refl) as (v & Hv & Hactions & _ & Hbadge).
  exists v. split; [exact Hv|]. split.
  - destruct (actions v) as [bs|] eqn:E; [|reflexivity].
    assert (Hsome : Some bs <> None) by discriminate.
    apply Hactions in Hsome. destruct Hsome as [_ Hs]. discriminate Hs.
  - apply Hbadge. exists approved. split; [reflexivity | discriminate].
Defined.

(** C9, as stated, fails: the time of a message is formatted by the host,
    so the same props rendered on two hosts give different outputs. *)
Lemma render_depends_on_host :
  map time_text (items (ChatInterface london (watched [notice]))) = ["12:00:00"] /\
  map time_text (items (ChatInterface paris (watched [notice]))) = ["13:00:00"] /\
  ChatInterface london (watched [notice]) <> ChatInterface paris (watched [notice]).
Proof.
  split; [reflexivity|]. split; [reflexivity|].
  intros Heq.
  apply (f_equal (fun o => map time_text (items o))) in Heq.
  vm_compute in Heq. discriminate Heq.
Qed.

(** C9, amended. Neither component has a storage or caching layer. The
    renderer's output is a function of its props and of the host's
    [toLocaleTimeString] on the timestamps of the messages, and of nothing
    else: two renders with equal props give equal outputs exactly when the
    two hosts format these timestamps alike, as one host does; an empty
    list of messages always gives the placeholder
    [Awaiting case file upload...] and no item, and only an empty list
    gives the placeholder. The toolbar's call handler appends the same
    events whatever the earlier trace and state: nothing is remembered from
    one call to the next, and a second call does all of the first again. *)
Theorem render_determined_by_props_and_clock
    {W : Type} (h1 h2 : Host) (props : Props W)
    (env : Toolbar.Env) (metadata : option Toolbar.ContextMetadata) :
  (ChatInterface h1 props = ChatInterface h2 props <->
   forall m, In m (messages props) ->
     toLocaleTimeString h1 (timestamp m) = toLocaleTimeString h2 (timestamp m)) /\
  (messages props = [] ->
   ChatInterface h1 props =
     {| items := []; placeholder := Some "Awaiting case file upload..." |}) /\
  (placeholder (ChatInterface h1 props) <> None -> messages props = []) /\
  (exists events,
     forall w,
       Eff.outcome (Toolbar.handleCallClient env metadata) w = Eff.Returned tt /\
       Eff.trace (Eff.exec (Toolbar.handleCallClient env metadata) w) =
         (Eff.trace w ++ events)%list /\
       Eff.trace (Eff.exec (Toolbar.handleCallClient env metadata)
                    (Eff.exec (Toolbar.handleCallClient env metadata) w)) =
         (Eff.trace w ++ events ++ events)%list).
Proof.
  split; [split|split; [|split]].
  - intros Heq m Hm.
    destruct (In_nth_error _ _ Hm) as (n & Hn).
    pose proof (item_of_message h1 props n m Hn) as H1.
    pose proof (item_of_message h2 props n m Hn) as H2.
    rewrite Heq, H2 in H1. injection H1 as H1.
    symmetry. exact H1.
  - intros Hclock. unfold ChatInterface, mapi. f_equal.
    apply mapi_from_ext_in. intros m k Hm.
    unfold render_message. rewrite (Hclock m Hm). reflexivity.
  - intros Hempty. unfold ChatInterface. rewrite Hempty. reflexivity.
  - unfold ChatInterface. cbn [placeholder].
    destruct (messages props) as [|m r]; [reflexivity|].
    simpl. intros Hp. congruence.
  - destruct (ToolbarFacts.handleCallClient_appends env metadata) as (events & Hrun).
    exists events. intros w.
    destruct (Hrun w) as [Hout Htrace].
    destruct (Hrun (Eff.exec (Toolbar.handleCallClient env metadata) w)) as [_ Hagain].
    split; [exact Hout|]. split; [exact Htrace|].
    rewrite Hagain, Htrace, <- app_assoc. reflexivity.
Qed.

Lemma render_determined_by_props_and_clock_witness :
  ChatInterface london (watched [notice; draft]) =
    ChatInterface MoreSamples.lisbon (watched [notice; draft]) /\
  ChatInterface london (watched [MoreSamples.postcard]) <>
    ChatInterface MoreSamples.lisbon (watched [MoreSamples.postcard]) /\
  ChatInterface paris (unwatched []) =
    {| items := []; placeholder := Some "Awaiting case file upload..." |}.
Proof.
  split; [|split].
  - apply (render_determined_by_props_and_clock london MoreSamples.lisbon
             (watched [notice; draft]) offline None).
    intros m [<- | [<- | []]]; reflexivity.
  - intros Heq.
    destruct (render_determined_by_props_and_clock london MoreSamples.lisbon
                (watched [MoreSamples.postcard]) offline None) as ((Honly & _) & _).
    pose proof (Honly Heq MoreSamples.postcard (or_introl eq_refl)) as Hsame.
    vm_compute in Hsame. discriminate Hsame.
  - apply (render_determined_by_props_and_clock paris london (unwatched []) offline None).
    reflexivity.
Defined.

End ChatFacts.

(** * The toolbar: paths, sessions and request bodies *)

Module ToolbarMore.
Import Eff Toolbar Phases Samples Session MoreSamples ToolbarFacts.

Lemma or_nonempty (v : option string) (d : string) :
  d <> EmptyString -> JS.or v d <> EmptyString.
Proof.
  intros Hd. destruct v as [s|]; simpl; [|exact Hd].
  destruct (s =? EmptyString) eqn:E; [exact Hd|].
  apply String.eqb_neq. exact E.
Qed.

(** The one toast of a settlement. *)
Lemma settle_toast (md : ContextMetadata) (reply : JS.Thrown + Response) :
  exists t,
    toasts (settle md reply) = [t] /\
    ((exists response payload,
        reply = inr response /\ ok response = true /\
        json response = inr payload /\ payload <> PNull /\
        title t = "Call Initiated" /\ variant t = None) \/
     (exists error, t = callFailed error)).
Proof.
  unfold settle. destruct reply as [e | response].
  - eexists. split; [reflexivity|]. right. exists e. reflexivity.
  - destruct (ok response) eqn:Hok.
    + destruct (json response) as [e | [| message | j]] eqn:Hjson.
      * eexists. split; [reflexivity|]. right. exists e. reflexivity.
      * eexists. split; [reflexivity|]. right. eexists. reflexivity.
      * eexists. split; [reflexivity|]. left.
        exists response, (PData message).
        repeat split; try assumption; try reflexivity. discriminate.
      * eexists. split; [reflexivity|]. left.
        exists response, (PValue j).
        repeat split; try assumption; try reflexivity. discriminate.
    + eexists. split; [reflexivity|]. right. eexists. reflexivity.
Qed.

(** X1. The call goes through: with a non-empty client name, an ok response
    and a parsed body that is not [null], the handler shows the toast
    [Call Initiated] and logs nothing. Its description is the reply's
    [message] when that is a non-empty string or any other truthy value,
    and [Calling <name>...] when the message is absent, empty or otherwise
    falsy. *)
Theorem call_success_path
    (env : Env) (md : ContextMetadata) (name : string) (w : World)
    (response : Response) (payload : Payload) :
  client_name md = Some name ->
  name <> EmptyString ->
  network env (callRequest env md) = inr response ->
  ok response = true ->
  json response = inr payload ->
  payload <> PNull ->
  handleCallClient env (Some md) w =
    (Returned tt,
     {| state := {| isLoading := false |};
        trace := trace w ++
          [ SetIsLoading true;
            Fetched (callRequest env md);
            Toasted {| title := "Call Initiated";
                       description :=
                         match payload with
                         | PData (Some s) =>
                             if s =? EmptyString
                             then Text ("Calling " ++ name ++ "...")
                             else Text s
                         | PValue j => Value j
                         | _ => Text ("Calling " ++ name ++ "...")
                         end;
                       variant := None |};
            SetIsLoading false ] |}).
Proof.
  intros Hname Hne Hreply Hok Hjson Hpayload.
  assert (Hg : JS.truthy (client_name md) = true).
  { rewrite Hname. apply truthy_nonempty. exact Hne. }
  rewrite (handleCallClient_run env md w Hg), Hreply.
  unfold settle. rewrite Hok, Hjson. unfold callInitiated. rewrite Hname.
  destruct payload as [| [s|] | j]; [congruence | | |]; cbn [option_map message_or JS.interpolate].
  - destruct (s =? EmptyString); reflexivity.
  - reflexivity.
  - reflexivity.
Qed.

Lemma call_success_path_witness :
  toasts (trace (exec (handleCallClient accepting (Some ann)) initial)) =
    [ {| title := "Call Initiated"; description := "Dialing"; variant := None |} ] /\
  toasts (trace (exec (handleCallClient numbering (Some ann)) initial)) =
    [ {| title := "Call Initiated"; description := Value "42"; variant := None |} ].
Proof.
  unfold exec. split.
  - rewrite (call_success_path accepting ann "Ann Lee" initial
               {| ok := true; status := 200%Z; json := inr (PData (Some "Dialing")) |}
               (PData (Some "Dialing"))).
    + reflexivity.
    + reflexivity.
    + discriminate.
    + reflexivity.
    + reflexivity.
    + reflexivity.
    + discriminate.
  - rewrite (call_success_path numbering ann "Ann Lee" initial
               {| ok := true; status := 200%Z; json := inr (PValue "42") |}
               (PValue "42")).
    + reflexivity.
    + reflexivity.
    + discriminate.
    + reflexivity.
    + reflexivity.
    + reflexivity.
    + discriminate.
Defined.

(** X2. A reply that cannot be read is a failed call: when the response is ok
    but [response.json()] rejects, or the parsed body is [null], the error
    is caught, logged and shown as the destructive toast [Call Failed], and
    the handler returns with [isLoading] reset. *)
Theorem unreadable_reply_is_caught
    (env : Env) (md : ContextMetadata) (w : World) (response : Response) :
  JS.truthy (client_name md) = true ->
  network env (callRequest env md) = inr response ->
  ok response = true ->
  (exists e, json response = inl e) \/ json response = inr PNull ->
  exists error,
    (forall e, json response = inl e -> error = e) /\
    handleCallClient env (Some md) w =
      (Returned tt,
       {| state := {| isLoading := false |};
          trace := trace w ++
            [ SetIsLoading true;
              Fetched (callRequest env md);
              ConsoleError "[v0] Call error:" error;
              Toasted {| title := "Call Failed";
                         description := match error with
                                        | JS.ErrorObject m => m
                                        | JS.OtherThrown _ => "Unknown error"
                                        end;
                         variant := Some "destructive" |};
              SetIsLoading false ] |}).
Proof.
  intros Hg Hreply Hok Hbad.
  rewrite (handleCallClient_run env md w Hg), Hreply. unfold settle. rewrite Hok.
  destruct Hbad as [(e & He) | Hnull].
  - exists e. rewrite He. split; [|reflexivity].
    intros e' He'. congruence.
  - rewrite Hnull. eexists. split; [|reflexivity].
    intros e' He'. discriminate He'.
Qed.

Lemma unreadable_reply_is_caught_witness :
  toasts (trace (exec (handleCallClient garbled (Some ann)) initial)) =
    [ {| title := "Call Failed";
         description := "Unexpected token < in JSON";
         variant := Some "destructive" |} ].
Proof.
  destruct (unreadable_reply_is_caught garbled ann initial
              {| ok := true; status := 200%Z;
                 json := inl (JS.ErrorObject "Unexpected token < in JSON") |}
              eq_refl eq_refl eq_refl
              (or_introl (ex_intro _ (JS.ErrorObject "Unexpected token < in JSON") eq_refl)))
    as (error & Herr & Hrun).
  unfold exec. rewrite Hrun. rewrite (Herr _ eq_refl). reflexivity.
Defined.

(** X3. Once its request is settled, [handleCallClient] has answered
    with exactly one toast and has returned normally. When the guard stops
    it, the click itself shows [Missing Information]. Otherwise the click
    shows nothing and leaves the handler suspended until the fetch settles;
    whatever the settlement, the rest of the handler returns normally and
    shows one toast: [Call Initiated] only when the response was ok and its
    body was read, [Call Failed] otherwise. The run in one go is the click
    followed by the rest on the network's reply. *)
Theorem call_client_answers_once_settled
    (env : Env) (metadata : option ContextMetadata) (w : World) :
  (JS.truthy (opt_client_name metadata) = false /\
   begin env metadata w =
     (Settled (Returned tt),
      {| state := state w;
         trace := trace w ++ [Toasted missingInformation] |})) \/
  (exists md loading,
     metadata = Some md /\
     JS.truthy (client_name md) = true /\
     begin env metadata w = (Suspended md, loading) /\
     toasts (trace loading) = toasts (trace w) /\
     (forall reply,
        outcome (resume md reply) loading = Returned tt /\
        exists t,
          toasts (trace (exec (resume md reply) loading)) =
            (toasts (trace w) ++ [t])%list /\
          ((exists response payload,
              reply = inr response /\ ok response = true /\
              json response = inr payload /\ payload <> PNull /\
              title t = "Call Initiated" /\ variant t = None) \/
           (exists error, t = callFailed error))) /\
     handleCallClient env metadata w =
       resume md (network env (callRequest env md)) loading).
Proof.
  destruct (JS.truthy (opt_client_name metadata)) eqn:Hguard.
  - right. destruct (guard_inv metadata Hguard) as (md & -> & Hg).
    exists md. eexists. split; [reflexivity|]. split; [exact Hg|].
    split; [apply (begin_passes env md w Hg)|].
    cbn [trace]. rewrite toasts_app. cbn [toasts]. rewrite app_nil_r.
    split; [reflexivity|]. split.
    + intros reply. unfold outcome, exec. rewrite resume_run. cbn [fst snd trace].
      split; [reflexivity|].
      destruct (settle_toast md reply) as (t & Ht & Hkind).
      exists t. rewrite <- !app_assoc, !toasts_app, Ht. cbn [toasts app].
      split; [reflexivity | exact Hkind].
    + rewrite handleCallClient_phases, (begin_passes env md w Hg). reflexivity.
  - left. split; [reflexivity|].
    unfold begin. rewrite Hguard. reflexivity.
Qed.

(** X4. No call without a client: every request that [handleCallClient] adds
    is a POST to a non-empty base URL followed by [/call_client], and its
    body carries the client name of the metadata, which is not empty, and a
    phone value that is not empty either. *)
Theorem requests_name_a_client
    (env : Env) (metadata : option ContextMetadata) (w : World) :
  exists new,
    requests (trace (exec (handleCallClient env metadata) w)) =
      (requests (trace w) ++ new)%list /\
    (List.length new <= 1)%nat /\
    Forall
      (fun r =>
         method r = "POST" /\
         exists base name number,
           url r = base ++ "/call_client" /\
           base <> EmptyString /\
           opt_client_name metadata = Some name /\
           name <> EmptyString /\
           number <> EmptyString /\
           body r = JSON.stringify
                      [ ("client_name", name);
                        ("phone", number);
                        ("reason", "Case review follow-up") ])
      new.
Proof.
  destruct (JS.truthy (opt_client_name metadata)) eqn:Hguard.
  - destruct (guard_inv metadata Hguard) as (md & -> & Hg).
    destruct (truthy_inv _ Hg) as (name & Hname & Hne).
    exists [callRequest env md]. split.
    + unfold exec. rewrite (handleCallClient_run env md w Hg). cbn [snd trace].
      rewrite !requests_app.
      destruct (settle_quiet md (network env (callRequest env md))) as [Hq _].
      rewrite Hq. reflexivity.
    + split; [cbn; lia|].
      constructor; [|constructor]. split; [reflexivity|].
      exists (apiUrl env), name, (JS.or (phone md) "555-0100").
      split; [reflexivity|]. split; [apply or_nonempty; discriminate|].
      split; [exact Hname|]. split; [exact Hne|].
      split; [apply or_nonempty; discriminate|].
      unfold callRequest, callPayload. rewrite Hname. reflexivity.
  - exists []. split; [|split; [cbn; lia | constructor]].
    unfold exec, handleCallClient. rewrite Hguard. cbn [negb].
    unfold toast, emit. cbn [snd trace].
    rewrite requests_app. reflexivity.
Qed.

(** The requests of a page and its calls in flight. *)
Lemma step_accounts (i : Input) (p : Page) :
  coherent p = true ->
  coherent (step i p) = true /\
  (List.length (requests (trace (world (step i p)))) + List.length (pending p) <=
   List.length (requests (trace (world p))) + (if is_reply i then 1 else 0) +
   List.length (pending (step i p)))%nat.
Proof.
  unfold coherent. destruct p as [w q]. cbn [pending world].
  destruct i as [env metadata [| |] | reply]; cbn [step is_reply position world pending].
  - cbn [ActionToolbar nth_error View.disabled].
    destruct (isLoading (state w)) eqn:Hflag.
    + intros Hc. cbn [pending world]. rewrite Hflag. split; [exact Hc | lia].
    + destruct q as [|md0 [|md1 q]]; cbn [negb]; try discriminate. intros _.
      cbn [start world pending].
      destruct (JS.truthy (opt_client_name metadata)) eqn:Hguard.
      * destruct (guard_inv metadata Hguard) as (md & -> & Hg).
        rewrite (begin_passes env md w Hg). cbn [pending world state isLoading trace app].
        rewrite requests_app, length_app. cbn. split; [reflexivity | lia].
      * unfold begin. rewrite Hguard. cbn [negb].
        unfold exec, toast, emit. cbn [snd pending world state trace].
        rewrite Hflag, requests_app, length_app. cbn. split; [reflexivity | lia].
  - cbn [ActionToolbar nth_error View.disabled start View.onClick world pending].
    unfold exec, handleSendEmail, toast, emit. cbn [snd state trace].
    rewrite requests_app, length_app. cbn [requests List.length].
    intros Hc. split; [exact Hc | lia].
  - cbn [ActionToolbar nth_error View.disabled start View.onClick world pending].
    unfold exec, handleScheduleMeeting, toast, emit. cbn [snd state trace].
    rewrite requests_app, length_app. cbn [requests List.length].
    intros Hc. split; [exact Hc | lia].
  - destruct q as [|md [|md1 q]]; try discriminate.
    + intros Hc. cbn [pending world]. split; [exact Hc | lia].
    + intros _. unfold exec. rewrite resume_run. cbn [snd pending world state isLoading trace].
      destruct (settle_quiet md reply) as [Hq _].
      rewrite !requests_app, Hq, !length_app. cbn. split; [reflexivity | lia].
Qed.

Lemma run_cons (i : Input) (inputs : list Input) (p : Page) :
  run (i :: inputs) p = run inputs (step i p).
Proof. reflexivity. Qed.

(** X5. The loading flag keeps the calls apart. Start from a page where
    the flag tells whether a call is waiting for its reply, as on the
    freshly mounted toolbar, and let any clicks and replies follow, the
    toolbar rendered anew from its state before each: then again the flag
    is on exactly when one call waits and never two do; a click on Call
    Client while a call waits reaches no handler and changes nothing; and
    the requests sent exceed the replies received by no more than the one
    call still waiting. The [onClick] that the Call Client button carries
    is the handler whose first part the click runs. *)
Theorem one_call_at_a_time (inputs : list Input) (p : Page) :
  coherent p = true ->
  coherent (run inputs p) = true /\
  (List.length (pending (run inputs p)) <= 1)%nat /\
  (List.length (requests (trace (world (run inputs p)))) + List.length (pending p) <=
   List.length (requests (trace (world p))) + List.length (filter is_reply inputs) +
   List.length (pending (run inputs p)))%nat /\
  (forall env metadata,
     pending p <> [] -> step (Click env metadata CallClient) p = p) /\
  (forall env metadata,
     exists b,
       nth_error (ActionToolbar env metadata (state (world p))) (position CallClient) =
         Some b /\
       View.disabled b = isLoading (state (world p)) /\
       forall w,
         View.onClick b w =
           match begin env metadata w with
           | (Settled o, w') => (o, w')
           | (Suspended md, w') => resume md (network env (callRequest env md)) w'
           end).
Proof.
  intros Hp.
  assert (Hrun : coherent (run inputs p) = true /\
    (List.length (requests (trace (world (run inputs p)))) + List.length (pending p) <=
     List.length (requests (trace (world p))) + List.length (filter is_reply inputs) +
     List.length (pending (run inputs p)))%nat).
  { revert p Hp. induction inputs as [|i inputs IH]; intros p Hp.
    - cbn. split; [exact Hp | lia].
    - rewrite run_cons. destruct (step_accounts i p Hp) as [Hc Hle].
      destruct (IH (step i p) Hc) as [Hc' Hle'].
      split; [exact Hc'|]. cbn [filter].
      destruct (is_reply i); cbn [List.length]; lia. }
  destruct Hrun as [Hc Hle].
  split; [exact Hc|]. split; [|split; [exact Hle|split]].
  - unfold coherent in Hc.
    destruct (pending (run inputs p)) as [|md [|md1 q]]; cbn; try lia; discriminate Hc.
  - intros env metadata Hwaiting. unfold coherent in Hp.
    cbn [step position ActionToolbar nth_error View.disabled].
    destruct (pending p) as [|md [|md1 q]]; [congruence | | discriminate Hp].
    rewrite Hp. reflexivity.
  - intros env metadata. eexists. split; [reflexivity|]. split; [reflexivity|].
    intros w. cbn [View.onClick]. apply handleCallClient_phases.
Qed.

Lemma one_call_at_a_time_witness :
  coherent
    (run [ Click offline (Some ann) CallClient;
           Click accepting (Some ann) CallClient;
           Reply (inl (JS.ErrorObject "Failed to fetch"));
           Click accepting (Some ann) CallClient ]
         fresh) = true /\
  List.length
    (requests (trace (world
       (run [ Click offline (Some ann) CallClient;
              Click accepting (Some ann) CallClient;
              Reply (inl (JS.ErrorObject "Failed to fetch"));
              Click accepting (Some ann) CallClient ]
            fresh)))) = 2%nat.
Proof.
  split.
  - apply (one_call_at_a_time
             [ Click offline (Some ann) CallClient;
               Click accepting (Some ann) CallClient;
               Reply (inl (JS.ErrorObject "Failed to fetch"));
               Click accepting (Some ann) CallClient ]
             fresh).
    reflexivity.
  - reflexivity.
Defined.

End ToolbarMore.

(** * The request body as a code *)

Module BodyFacts.
Import Eff Toolbar Samples MoreSamples JSON JSONRead.

Lemma append_assoc (a b c : string) : (a ++ b) ++ c = a ++ (b ++ c).
Proof.
  induction a as [|x a IH]; simpl; [reflexivity|].
  rewrite IH. reflexivity.
Qed.

(** Reading undoes the escaping of one code unit, whatever follows. *)
Lemma read1_escape (c : ascii) (r : string) :
  read1 (escape c ++ r) = Some (c, r).
Proof.
  destruct c as [[] [] [] [] [] [] [] []]; reflexivity.
Qed.

(** The escaped text up to the closing quote determines the text. *)
Lemma escape_all_prefix (s1 : string) :
  forall s2 r1 r2,
    escape_all s1 ++ String dquote r1 = escape_all s2 ++ String dquote r2 ->
    s1 = s2 /\ r1 = r2.
Proof.
  induction s1 as [|c1 s1 IH]; intros [|c2 s2] r1 r2 H; cbn [escape_all] in H.
  - injection H as ->. split; reflexivity.
  - rewrite append_assoc in H. apply (f_equal read1) in H.
    rewrite read1_escape in H. discriminate H.
  - rewrite append_assoc in H. apply (f_equal read1) in H.
    rewrite read1_escape in H. discriminate H.
  - rewrite !append_assoc in H. apply (f_equal read1) in H.
    rewrite !read1_escape in H. injection H as -> H.
    destruct (IH _ _ _ H) as [-> ->]. split; reflexivity.
Qed.

Lemma quote_prefix (s1 s2 r1 r2 : string) :
  quote s1 ++ r1 = quote s2 ++ r2 -> s1 = s2 /\ r1 = r2.
Proof.
  unfold quote. cbn [append]. rewrite !append_assoc. cbn [append].
  intros H. injection H as H. apply (escape_all_prefix _ _ _ _ H).
Qed.

Lemma property_prefix (p1 p2 : string * string) (r1 r2 : string) :
  property p1 ++ r1 = property p2 ++ r2 -> p1 = p2 /\ r1 = r2.
Proof.
  destruct p1 as [k1 v1], p2 as [k2 v2]. unfold property. cbn [fst snd].
  rewrite !append_assoc. intros H.
  apply quote_prefix in H. destruct H as [-> H].
  change (":" ++ quote v1 ++ r1) with (String ":" (quote v1 ++ r1)) in H.
  change (":" ++ quote v2 ++ r2) with (String ":" (quote v2 ++ r2)) in H.
  injection H as H.
  rewrite !append_assoc in H. cbn [append] in H.
  apply escape_all_prefix in H. destruct H as [-> ->]. split; reflexivity.
Qed.

Lemma join_one (sep x : string) : join sep [x] = x.
Proof. reflexivity. Qed.

Lemma join_more (sep x y : string) (r : list string) :
  join sep (x :: y :: r) = x ++ sep ++ join sep (y :: r).
Proof. reflexivity. Qed.

Lemma join_starts_quoted (p : string * string) (ps : list string) (r : string) :
  exists t, join "," (property p :: ps) ++ r = String dquote t.
Proof.
  destruct ps as [|q qs]; unfold property, quote; cbn [join append];
    eexists; reflexivity.
Qed.

Lemma brace_is_no_quote (r t : string) : String "}" r <> String dquote t.
Proof. intros H. injection H as H _. vm_compute in H. discriminate H. Qed.

Lemma join_properties_inj (o1 : object) :
  forall o2 r1 r2,
    join "," (map property o1) ++ String "}" r1 =
    join "," (map property o2) ++ String "}" r2 ->
    o1 = o2.
Proof.
  induction o1 as [|p1 o1 IH]; intros [|p2 o2] r1 r2 H.
  - reflexivity.
  - exfalso. cbn [map] in H.
    destruct (join_starts_quoted p2 (map property o2) (String "}" r2)) as (t & Ht).
    rewrite Ht in H. apply (brace_is_no_quote r1 t). exact H.
  - exfalso. cbn [map] in H.
    destruct (join_starts_quoted p1 (map property o1) (String "}" r1)) as (t & Ht).
    rewrite Ht in H. apply (brace_is_no_quote r2 t). symmetry. exact H.
  - destruct o1 as [|q1 o1]; destruct o2 as [|q2 o2]; cbn [map] in H;
      rewrite ?join_one, ?join_more in H.
    + apply property_prefix in H. destruct H as [-> _]. reflexivity.
    + exfalso. rewrite append_assoc in H. apply property_prefix in H.
      destruct H as [_ H]. rewrite append_assoc in H. discriminate H.
    + exfalso. rewrite append_assoc in H. apply property_prefix in H.
      destruct H as [_ H]. rewrite append_assoc in H. discriminate H.
    + rewrite !append_assoc in H. apply property_prefix in H.
      destruct H as [-> H].
      change ("," ++ ?x) with (String "," x) in H.
      injection H as H.
      f_equal. apply (IH (q2 :: o2) r1 r2).
      cbn [map]. exact H.
Qed.

(** [JSON.stringify] does not confuse two objects of string properties. *)
Lemma stringify_inj (o1 o2 : object) :
  stringify o1 = stringify o2 -> o1 = o2.
Proof.
  unfold stringify. cbn [append]. intros H. injection H as H.
  apply (join_properties_inj o1 o2 EmptyString EmptyString). exact H.
Qed.

(** X6. The body of the request says what was sent and nothing else: two
    calls with the same body carry the same client name, the same phone
    value and the same reason, whatever quotes, backslashes or control
    characters the name and the phone contain. *)
Theorem body_determines_payload
    (env1 env2 : Env) (md1 md2 : ContextMetadata) :
  body (callRequest env1 md1) = body (callRequest env2 md2) ->
  callPayload md1 = callPayload md2 /\
  client_name md1 = client_name md2 /\
  JS.or (phone md1) "555-0100" = JS.or (phone md2) "555-0100".
Proof.
  unfold callRequest. cbn [body]. intros H. apply stringify_inj in H.
  split; [exact H|].
  unfold callPayload in H.
  destruct (client_name md1) as [n1|], (client_name md2) as [n2|];
    cbn [List.app] in H; inversion H; split; reflexivity.
Qed.

Lemma body_determines_payload_witness :
  callPayload ann = callPayload ann_blank_phone.
Proof.
  apply (body_determines_payload accepting offline ann ann_blank_phone).
  reflexivity.
Defined.

End BodyFacts.

(** * The renderer: order, badges and callbacks *)

Module ChatMore.
Import Chat Samples ChatFacts.

Section Rendered.

Context {W : Type}.
Variable host : Host.
Variable props : Props W.

Lemma keys_from (l : list Message) :
  forall i,
    map key (mapi_from (render_message host props) i l) = map id l /\
    map index (mapi_from (render_message host props) i l) = seq i (List.length l).
Proof.
  induction l as [|m l IH]; intros i; [split; reflexivity|].
  destruct (IH (S i)) as [Hk Hi]. cbn [mapi_from map List.length seq].
  rewrite Hk, Hi. split; reflexivity.
Qed.

End Rendered.

(** X7. The items come in the order of the messages: the React keys are the
    message ids, in order (duplicates included), and the item at position
    [n], counted from 0, animates with index [n]. *)
Theorem items_follow_the_messages
    {W : Type} (host : Host) (props : Props W) :
  map key (items (ChatInterface host props)) = map id (messages props) /\
  map index (items (ChatInterface host props)) =
    seq 0 (List.length (messages props)).
Proof.
  unfold ChatInterface, mapi. cbn [items]. apply keys_from.
Qed.

(** X8. Buttons and badge never appear together. An item with a badge shows
    the status in upper case, [APPROVED] on green, [REJECTED] on red or
    [MODIFIED] on gold; a message without status, or one that is pending
    but does not require approval, shows neither buttons nor badge. *)
Theorem badge_or_buttons
    {W : Type} (host : Host) (props : Props W) (n : nat) (m : Message) :
  nth_error (messages props) n = Some m ->
  exists v,
    nth_error (items (ChatInterface host props)) n = Some v /\
    (actions v = None \/ badge v = None) /\
    (forall b, badge v = Some b ->
       (status m = Some approved /\ badge_text b = "APPROVED" /\
        badge_class b =
          "inline-block text-xs px-3 py-1 rounded-full font-sans font-semibold bg-green-600 text-white") \/
       (status m = Some rejected /\ badge_text b = "REJECTED" /\
        badge_class b =
          "inline-block text-xs px-3 py-1 rounded-full font-sans font-semibold bg-red-600 text-white") \/
       (status m = Some modified /\ badge_text b = "MODIFIED" /\
        badge_class b =
          "inline-block text-xs px-3 py-1 rounded-full font-sans font-semibold bg-[#FFD700] text-[#8B0000]")) /\
    (status m = None \/ (status m = Some pending /\ requiresApproval m <> Some true) ->
     actions v = None /\ badge v = None).
Proof.
  intros Hm. exists (render_message host props m n).
  split; [apply (item_of_message host props n m Hm)|].
  cbn [render_message actions badge]. unfold render_actions, render_badge.
  destruct (status m) as [[| | |]|]; cbn [is_pending negb andb].
  - split; [right; reflexivity|]. split; [intros b Hb; discriminate Hb|].
    intros [Hs | [_ Hr]]; [discriminate Hs|].
    destruct (requiresApproval m) as [[|]|]; cbn [is_true andb];
      [congruence | split; reflexivity | split; reflexivity].
  - rewrite andb_false_r. split; [left; reflexivity|]. split.
    + intros b Hb. injection Hb as <-. left. repeat split.
    + intros [Hs | [Hs _]]; discriminate Hs.
  - rewrite andb_false_r. split; [left; reflexivity|]. split.
    + intros b Hb. injection Hb as <-. right. left. repeat split.
    + intros [Hs | [Hs _]]; discriminate Hs.
  - rewrite andb_false_r. split; [left; reflexivity|]. split.
    + intros b Hb. injection Hb as <-. right. right. repeat split.
    + intros [Hs | [Hs _]]; discriminate Hs.
  - rewrite andb_false_r. split; [left; reflexivity|]. split.
    + intros b Hb. discriminate Hb.
    + intros _. split; reflexivity.
Qed.

Lemma badge_or_buttons_witness :
  exists v b,
    nth_error (items (ChatInterface paris (watched [notice; draft; settled]))) 2 = Some v /\
    badge v = Some b /\
    badge_text b = "APPROVED" /\
    actions v = None.
Proof.
  destruct (badge_or_buttons paris (watched [notice; draft; settled]) 2 settled eq_refl)
    as (v & Hv & Hexcl & Hbadge & _).
  destruct (badge v) as [b|] eqn:Eb.
  - exists v, b. split; [exact Hv|]. split; [exact Eb|].
    destruct (Hbadge b eq_refl) as [(_ & Ht & _) | [(Hs & _) | (Hs & _)]];
      [|discriminate Hs | discriminate Hs].
    split; [exact Ht|].
    destruct Hexcl as [Ha | Hb]; [exact Ha | discriminate Hb].
  - exfalso. cbn in Hv. injection Hv as <-. cbn in Eb. discriminate Eb.
Defined.

(** X9. The agent line is shown exactly for a message whose [agentName] is
    present and not empty; it names that agent, and the confidence pill is
    inside it, so a confidence without an agent name is not shown at all. *)
Theorem header_needs_agent
    {W : Type} (host : Host) (props : Props W) (n : nat) (m : Message) :
  nth_error (messages props) n = Some m ->
  exists v,
    nth_error (items (ChatInterface host props)) n = Some v /\
    (header v <> None <-> exists a, agentName m = Some a /\ a <> EmptyString) /\
    (forall h, header v = Some h ->
       agentName m = Some (agent h) /\ percent h = confidence m).
Proof.
  intros Hm. exists (render_message host props m n).
  split; [apply (item_of_message host props n m Hm)|].
  cbn [render_message header]. unfold render_header.
  destruct (agentName m) as [a|]; cbn [JS.truthy JS.interpolate].
  - destruct (a =? EmptyString) eqn:E; cbn [negb].
    + apply String.eqb_eq in E. subst a. split; [split|].
      * intros H. congruence.
      * intros (a & Ha & Hne). injection Ha as <-. congruence.
      * intros h Hh. discriminate Hh.
    + apply String.eqb_neq in E. split; [split|].
      * intros _. exists a. split; [reflexivity | exact E].
      * intros _. discriminate.
      * intros h Hh. injection Hh as <-. split; reflexivity.
  - split; [split|].
    + intros H. congruence.
    + intros (a & Ha & _). discriminate Ha.
    + intros h Hh. discriminate Hh.
Qed.

Lemma header_needs_agent_witness :
  exists v,
    nth_error (items (ChatInterface london (watched [notice; draft]))) 1 = Some v /\
    header v <> None.
Proof.
  destruct (header_needs_agent london (watched [notice; draft]) 1 draft eq_refl)
    as (v & Hv & Hshown & _).
  exists v. split; [exact Hv|].
  apply Hshown. exists "Communication Guru". split; [reflexivity | discriminate].
Defined.

(** The calls a list of messages gives rise to when every button is
    clicked once, top to bottom. *)
Lemma clicks_from (host : Host) (props : Props Log) (l : list Message) :
  onMessageAction props = Some record ->
  forall i log,
    fold_left (fun log b => View.onClick b log)
      (flat_map (fun v => match actions v with Some bs => bs | None => [] end)
                (mapi_from (render_message host props) i l))
      log =
    (log ++
     flat_map (fun m =>
                 if is_true (requiresApproval m) && is_pending (status m)
                 then [(id m, approve); (id m, modify); (id m, reject)]
                 else [])
              l)%list.
Proof.
  intros Hcb. induction l as [|m l IH]; intros i log.
  - cbn. rewrite app_nil_r. reflexivity.
  - cbn [mapi_from flat_map]. rewrite fold_left_app, IH.
    cbn [render_message actions]. unfold render_actions.
    destruct (is_true (requiresApproval m) && is_pending (status m)).
    + cbn [fold_left View.onClick]. unfold handleAction. rewrite Hcb.
      unfold record. rewrite <- !app_assoc. reflexivity.
    + reflexivity.
Qed.

Lemma silent_from (host : Host) (props : Props Log) (l : list Message) :
  onMessageAction props = None ->
  forall i log,
    fold_left (fun log b => View.onClick b log)
      (flat_map (fun v => match actions v with Some bs => bs | None => [] end)
                (mapi_from (render_message host props) i l))
      log = log.
Proof.
  intros Hcb. induction l as [|m l IH]; intros i log; [reflexivity|].
  cbn [mapi_from flat_map]. rewrite fold_left_app, IH.
  cbn [render_message actions]. unfold render_actions.
  destruct (is_true (requiresApproval m) && is_pending (status m)); [|reflexivity].
  cbn [fold_left View.onClick]. unfold handleAction. rewrite Hcb. reflexivity.
Qed.

(** X10. Clicking every rendered button once, top to bottom, calls the callback
    three times (approve, modify, reject) for each message that requires
    approval and is pending, with that message's id and in list order, and
    never for any other message; without a callback nothing is called. *)
Theorem clicks_reach_the_callback (host : Host) (l : list Message) :
  click_all (ChatInterface host (watched l)) =
    flat_map (fun m =>
                if is_true (requiresApproval m) && is_pending (status m)
                then [(id m, approve); (id m, modify); (id m, reject)]
                else [])
             l /\
  click_all (ChatInterface host (unwatched l)) = [].
Proof.
  split.
  - exact (clicks_from host (watched l) l eq_refl 0 []).
  - exact (silent_from host (unwatched l) l eq_refl 0 []).
Qed.

End ChatMore.
